(** * brainsmash/neuro/cifti.py: structure namer and CIFTI mapping exporter

    A shallow embedding of [make_fs_key] and [export_cifti_mapping] and the
    properties their specification states about them.

    Modelling conventions.
    - A Python [str] is a [string]; the case mappings [str.lower] and
      [str.upper] act on the ASCII letters and leave every other character
      alone.
    - [None] is the [None] of an [option].
    - An [assert] that fails raises [AssertionError] (the interpreter runs
      with assertions enabled); an exception ends the call, so fallible code
      lives in an error monad.
    - The exporter acts on the system through [tempfile.gettempdir],
      [os.system] and [pd.read_table]. The system is a state: the temporary
      directory, the files with their text, and the trace of the calls
      made. What a command does is left open: a shell is any function from
      a command line and the files to an exit status and the files it
      leaves. Paths are POSIX paths. *)

From Stdlib Require Import Ascii String ZArith Lia Bool.
From stdpp Require Import gmap strings list fin_maps.

Local Open Scope Z_scope.

(* ===================================================================== *)
(** ** Python strings *)
(* ===================================================================== *)

Definition is_ascii_upper (c : ascii) : bool :=
  (65 <=? nat_of_ascii c)%nat && (nat_of_ascii c <=? 90)%nat.

Definition is_ascii_lower (c : ascii) : bool :=
  (97 <=? nat_of_ascii c)%nat && (nat_of_ascii c <=? 122)%nat.

Definition lower_char (c : ascii) : ascii :=
  if is_ascii_upper c then ascii_of_nat (nat_of_ascii c + 32) else c.

Definition upper_char (c : ascii) : ascii :=
  if is_ascii_lower c then ascii_of_nat (nat_of_ascii c - 32) else c.

Fixpoint str_map (f : ascii -> ascii) (s : string) : string :=
  match s with
  | EmptyString => EmptyString
  | String c s' => String (f c) (str_map f s')
  end.

(** [s.lower()] and [s.upper()]. *)
Definition lower (s : string) : string := str_map lower_char s.
Definition upper (s : string) : string := str_map upper_char s.

(** [x in l] for a list of strings. *)
Definition str_in (x : string) (l : list string) : bool :=
  existsb (String.eqb x) l.

(** [x in l] where [x] and the members of [l] are strings or [None]. *)
Definition opt_str_eqb (x y : option string) : bool :=
  match x, y with
  | Some a, Some b => String.eqb a b
  | None, None => true
  | _, _ => false
  end.

Definition opt_str_in (x : option string) (l : list (option string)) : bool :=
  existsb (opt_str_eqb x) l.

(* ===================================================================== *)
(** ** Exceptions and the error monad *)
(* ===================================================================== *)

Inductive exn : Type :=
| AssertionError
| FileNotFoundError (path : string)
| ParserError (path : string).

Inductive result (A : Type) : Type :=
| Return (a : A)
| Raise (e : exn).
Arguments Return {A} a.
Arguments Raise {A} e.

Definition rbind {A B : Type} (r : result A) (k : A -> result B) : result B :=
  match r with
  | Return a => k a
  | Raise e => Raise e
  end.

#[global] Instance result_ret : MRet result := @Return.
#[global] Instance result_bind : MBind result := fun A B k r => rbind r k.

#[global] Instance exn_eq_dec : EqDecision exn.
Proof. solve_decision. Defined.

#[global] Instance result_eq_dec {A : Type} `{EqDecision A} : EqDecision (result A).
Proof. solve_decision. Defined.

(** [assert b]. *)
Definition py_assert (b : bool) : result unit :=
  if b then Return tt else Raise AssertionError.

(* ===================================================================== *)
(** ** Structure namer *)
(* ===================================================================== *)

(** Gross anatomical structure names. *)
Definition structures : list string :=
  [ "diencephalon_ventral"; "brain_stem"; "thalamus"; "cerebellum";
    "hippocampus"; "pallidum"; "accumbens"; "putamen"; "amygdala";
    "caudate"; "cortex" ].

(** FreeSurfer anatomical structure names. *)
Definition freesurfer_structures : list string :=
  [ "BRAIN_STEM"; "DIENCEPHALON_VENTRAL_LEFT";
    "DIENCEPHALON_VENTRAL_RIGHT"; "THALAMUS_LEFT";
    "THALAMUS_RIGHT"; "CEREBELLUM_LEFT";
    "CEREBELLUM_RIGHT"; "HIPPOCAMPUS_LEFT";
    "HIPPOCAMPUS_RIGHT"; "PALLIDUM_LEFT"; "PALLIDUM_RIGHT";
    "ACCUMBENS_LEFT"; "ACCUMBENS_RIGHT"; "PUTAMEN_LEFT";
    "PUTAMEN_RIGHT"; "AMYGDALA_LEFT"; "AMYGDALA_RIGHT";
    "CAUDATE_LEFT"; "CAUDATE_RIGHT"; "CORTEX_LEFT";
    "CORTEX_RIGHT" ].

Definition N_CIFTI_INDEX : Z := 91282.
Definition N_INDEX_CORTEX_LEFT : Z := 29696.
Definition N_INDEX_CORTEX_RIGHT : Z := 29716.
Definition N_INDEX_SUBCORTEX : Z := 31870.
Definition N_VERTEX_HEMISPHERE : Z := 32492.

(** [make_fs_key(structure, hemisphere)]: the statements of the source, one
    per line, in the source's order. *)
Definition make_fs_key (structure : string) (hemisphere : option string)
  : result string :=
  py_assert (str_in (lower structure) structures) ;;
  let hemisphere := option_map lower hemisphere in
  py_assert (opt_str_in hemisphere [Some "left"; Some "right"; None]) ;;
  let s := upper structure in
  match hemisphere with
  | Some h =>
      py_assert (negb (String.eqb s "BRAIN_STEM")) ;;
      mret (s +:+ ("_" +:+ upper h))
  | None =>
      py_assert (String.eqb s "BRAIN_STEM") ;;
      mret s
  end.

(** The hemisphere arguments the namer knows. *)
Definition hemispheres : list (option string) := [Some "left"; Some "right"; None].

Definition is_return {A : Type} (r : result A) : bool :=
  match r with Return _ => true | Raise _ => false end.

(** The inputs in lower case on which [make_fs_key] returns. *)
Definition valid_inputs : list (string * option string) :=
  List.filter (fun i => is_return (make_fs_key i.1 i.2))
              (list_prod structures hemispheres).

(* ===================================================================== *)
(** ** Library functions used by the exporter *)
(* ===================================================================== *)

Definition newline : ascii := ascii_of_nat 10.
Definition space : ascii := " "%char.

(** [template.format(arg)] for a template with one replacement field [{}]. *)
Fixpoint str_format (template arg : string) : string :=
  match template with
  | EmptyString => EmptyString
  | String "{" (String "}" rest) => arg +:+ rest
  | String c rest => String c (str_format rest arg)
  end.

Fixpoint ends_with_sep (s : string) : bool :=
  match s with
  | EmptyString => false
  | String c EmptyString => Ascii.eqb c "/"
  | String _ s' => ends_with_sep s'
  end.

(** [os.path.join(a, b)] on a POSIX system. *)
Definition join (a b : string) : string :=
  if String.prefix "/" b then b
  else if String.eqb a "" || ends_with_sep a then a +:+ b
  else a +:+ "/" +:+ b.

(** [s.split(sep)] for a one-character separator. *)
Fixpoint split_on (sep : ascii) (s : string) : list string :=
  match s with
  | EmptyString => [EmptyString]
  | String c s' =>
      if Ascii.eqb c sep then EmptyString :: split_on sep s'
      else match split_on sep s' with
           | w :: ws => String c w :: ws
           | [] => [String c EmptyString]
           end
  end.

(** A table: the name of its index axis, the names of its data columns, and
    its rows, each the row's key (its entry in the index) and its cells in
    the order of the columns. Cells keep the text of their field. *)
Record DataFrame : Type := {
  df_axis : option string;
  df_columns : list string;
  df_rows : list (string * list string);
}.

Definition df_index (df : DataFrame) : list string := (df_rows df).*1.
Definition df_nrows (df : DataFrame) : nat := length (df_rows df).

(** [df.rename_axis(name)]. *)
Definition rename_axis (name : string) (df : DataFrame) : DataFrame :=
  {| df_axis := Some name; df_columns := df_columns df; df_rows := df_rows df |}.

Definition nonblank (line : string) : bool := negb (String.eqb line "").

(** One line of a table with [width] data columns: the fields are separated
    by [sep]; the first is the key ([index_col=0]), the others the cells. *)
Definition parse_row (sep : ascii) (width : nat) (line : string)
  : option (string * list string) :=
  match split_on sep line with
  | key :: cells => if (length cells =? width)%nat then Some (key, cells) else None
  | [] => None
  end.

(** Modelled from the spec: the table parser is an external library, which
    the spec describes as the capability to parse delimited text with a given
    column schema into a keyed table, failing on malformed content. This is
    [pd.read_table(..., header=None, index_col=0, sep=sep, names=names)] on
    the text of a file: no header row, blank lines skipped, one row per line,
    the first field the key and one further field per name. *)
Definition parse_table (sep : ascii) (names : list string) (text : string)
  : option DataFrame :=
  rows ← mapM (parse_row sep (length names))
              (filter (fun l => nonblank l = true) (split_on newline text));
  Some {| df_axis := None; df_columns := names; df_rows := rows |}.

(* ===================================================================== *)
(** ** The operating system as the exporter sees it *)
(* ===================================================================== *)

(** What the program asks of the system, in the order it asks. *)
Inductive event : Type :=
| EvSystem (cmd : string) (status : Z)
| EvReadTable (path : string).

Record OS : Type := {
  os_tempdir : string;
  os_files : gmap string string;
  os_trace : list event;
}.

(** The behaviour of the shell on a command line: the exit status and the
    files it leaves. *)
Abbreviation Shell := (string -> gmap string string -> Z * gmap string string).

(** Computations that read and change the system and may raise. The state
    survives an exception. *)
Definition M (A : Type) : Type := OS -> result A * OS.

#[global] Instance M_ret : MRet M := fun A a os => (Return a, os).
#[global] Instance M_bind : MBind M := fun A B k m os =>
  match m os with
  | (Return a, os') => k a os'
  | (Raise e, os') => (Raise e, os')
  end.

Definition log (ev : event) (os : OS) : OS :=
  {| os_tempdir := os_tempdir os; os_files := os_files os;
     os_trace := os_trace os ++ [ev] |}.

Definition with_files (fs : gmap string string) (os : OS) : OS :=
  {| os_tempdir := os_tempdir os; os_files := fs; os_trace := os_trace os |}.

(** [tempfile.gettempdir()]. *)
Definition gettempdir : M string := fun os => (Return (os_tempdir os), os).

(** [os.system(cmd)]: runs the command and returns its exit status. *)
Definition system (shell : Shell) (cmd : string) : M Z := fun os =>
  let '(status, fs) := shell cmd (os_files os) in
  (Return status, log (EvSystem cmd status) (with_files fs os)).

(** Modelled from the spec: reading the table of the file at [path] fails
    with a missing-file error when there is no such file and with a
    malformed-content error when its text does not parse. *)
Definition table_of_file (fs : gmap string string) (path : string)
    (sep : ascii) (names : list string) : result DataFrame :=
  match fs !! path with
  | None => Raise (FileNotFoundError path)
  | Some text =>
      match parse_table sep names text with
      | Some df => Return df
      | None => Raise (ParserError path)
      end
  end.

(** [pd.read_table(path, header=None, index_col=0, sep=sep, names=names)]. *)
Definition read_table (path : string) (sep : ascii) (names : list string)
  : M DataFrame := fun os =>
  (table_of_file (os_files os) path sep names, log (EvReadTable path) os).

(* ===================================================================== *)
(** ** Mapping exporter *)
(* ===================================================================== *)

Section Exporter.

(** [brainsmash.config.parcel_labels_lr], the configured default image; the
    configuration is not among the sources, its value is left open. *)
Variable parcel_labels_lr : string.
Variable shell : Shell.

Definition export_cifti_mapping (image : option string)
  : M (gmap string DataFrame) :=
  tempdir ← gettempdir;
  let volume := join tempdir "volume.txt" in
  let left := join tempdir "left.txt" in
  let right := join tempdir "right.txt" in
  let image := match image with None => parcel_labels_lr | Some i => i end in
  let basecmd :=
    str_format "wb_command -cifti-export-dense-mapping '{}' COLUMN " image in
  system shell (basecmd +:+ str_format " -volume-all '{}' -structure " volume) ;;
  system shell (basecmd +:+ str_format "-surface CORTEX_LEFT '{}'" left) ;;
  system shell (basecmd +:+ str_format "-surface CORTEX_RIGHT '{}'" right) ;;
  let maps : gmap string DataFrame := ∅ in
  subcortex ← read_table volume space ["structure"; "mni_i"; "mni_j"; "mni_k"];
  let maps := <["subcortex" := rename_axis "index" subcortex]> maps in
  cortex_left ← read_table left space ["vertex"];
  let maps := <["cortex_left" := rename_axis "index" cortex_left]> maps in
  cortex_right ← read_table right space ["vertex"];
  let maps := <["cortex_right" := rename_axis "index" cortex_right]> maps in
  mret maps.

End Exporter.

(* ===================================================================== *)
(** ** Vocabulary of the specification *)
(* ===================================================================== *)

(** The command lines as the specification words them: a base command and a
    suffix per region. *)
Definition base_command (image : string) : string :=
  "wb_command -cifti-export-dense-mapping '" +:+ image +:+ "' COLUMN".
Definition subcortex_suffix (volume : string) : string :=
  "-volume-all '" +:+ volume +:+ "' -structure".
Definition cortex_left_suffix (left : string) : string :=
  "-surface CORTEX_LEFT '" +:+ left +:+ "'".
Definition cortex_right_suffix (right : string) : string :=
  "-surface CORTEX_RIGHT '" +:+ right +:+ "'".

Definition export_commands (image tempdir : string) : list string :=
  [ base_command image +:+ "  " +:+ subcortex_suffix (join tempdir "volume.txt") +:+ " ";
    base_command image +:+ " " +:+ cortex_left_suffix (join tempdir "left.txt");
    base_command image +:+ " " +:+ cortex_right_suffix (join tempdir "right.txt") ].

(** The command lines passed to [os.system], oldest first. *)
Definition system_commands (trace : list event) : list string :=
  omap (fun ev => match ev with EvSystem cmd _ => Some cmd | _ => None end) trace.

(** The paths handed to the table parser, oldest first. *)
Definition tables_read (trace : list event) : list string :=
  omap (fun ev => match ev with EvReadTable path => Some path | _ => None end) trace.

(** The files a sequence of commands leaves. *)
Definition files_after (shell : Shell) (cmds : list string)
    (fs : gmap string string) : gmap string string :=
  foldl (fun fs cmd => (shell cmd fs).2) fs cmds.

(** The exit statuses of a sequence of commands. *)
Fixpoint statuses (shell : Shell) (cmds : list string) (fs : gmap string string)
  : list Z :=
  match cmds with
  | [] => []
  | cmd :: cmds' => (shell cmd fs).1 :: statuses shell cmds' (shell cmd fs).2
  end.

(** A shell that does to the files what [shell] does and exits with the
    status [status] chooses. *)
Definition with_status (status : string -> gmap string string -> Z)
    (shell : Shell) : Shell :=
  fun cmd fs => (status cmd fs, (shell cmd fs).2).

(** The table a file of [fs] holds, as the exporter stores it. *)
Definition load_table (fs : gmap string string) (path : string)
    (names : list string) : result DataFrame :=
  df ← table_of_file fs path space names; mret (rename_axis "index" df).

(** The system when the last of [cmds] has ended. *)
Definition after_commands (shell : Shell) (cmds : list string) (os : OS) : OS :=
  {| os_tempdir := os_tempdir os;
     os_files := files_after shell cmds (os_files os);
     os_trace := os_trace os
                 ++ zip_with EvSystem cmds (statuses shell cmds (os_files os)) |}.

(** The mapping the exporter assembles from its three tables. *)
Definition mapping_of (subcortex cortex_left cortex_right : DataFrame)
  : gmap string DataFrame :=
  <["cortex_right" := cortex_right]>
    (<["cortex_left" := cortex_left]> (<["subcortex" := subcortex]> ∅)).

(** Text of a table file: one line per row, the key and the cells separated
    by single spaces. *)
Fixpoint join_fields (sep : ascii) (first : string) (rest : list string)
  : string :=
  match rest with
  | [] => first
  | f :: fs => first +:+ String sep (join_fields sep f fs)
  end.

Fixpoint render (rows : list (string * list string)) : string :=
  match rows with
  | [] => EmptyString
  | (key, cells) :: rows' =>
      join_fields space key cells +:+ String newline (render rows')
  end.

Fixpoint has_char (c : ascii) (s : string) : bool :=
  match s with
  | EmptyString => false
  | String x s' => Ascii.eqb x c || has_char c s'
  end.

(** A field is plain text without separators. *)
Definition plain_field (f : string) : bool :=
  negb (has_char space f) && negb (has_char newline f).

(** Rows of a table with [width] data columns. *)
Definition well_formed (width : nat) (rows : list (string * list string)) : bool :=
  forallb (fun row => (length row.2 =? width)%nat
                      && plain_field row.1 && forallb plain_field row.2) rows.

(* ===================================================================== *)
(** ** Mock systems *)
(* ===================================================================== *)

Definition mock_left_rows : list (string * list string) :=
  [("0", ["5"]); ("1", ["7"])].
Definition mock_right_rows : list (string * list string) :=
  [("29696", ["3"])].
Definition mock_volume_rows : list (string * list string) :=
  [("59412", ["ACCUMBENS_LEFT"; "49"; "66"; "29"]);
   ("59413", ["ACCUMBENS_LEFT"; "50"; "66"; "29"]);
   ("59547", ["ACCUMBENS_RIGHT"; "40"; "66"; "29"])].

(** A stand-in for the tool: each call leaves the three tables in [/tmp] and
    exits with [status]. *)
Definition mock_shell (status : Z) : Shell := fun _ fs =>
  (status,
   <["/tmp/volume.txt" := render mock_volume_rows]>
     (<["/tmp/left.txt" := render mock_left_rows]>
       (<["/tmp/right.txt" := render mock_right_rows]> fs))).

(** A stand-in that cannot run: exit status 126 and no file written. *)
Definition broken_shell : Shell := fun _ fs => (126, fs).

Definition mock_os (fs : gmap string string) : OS :=
  {| os_tempdir := "/tmp"; os_files := fs; os_trace := [] |}.

(* ===================================================================== *)
(** * Properties *)
(* ===================================================================== *)

(** ** Case mappings *)

Section CaseMapping.

Lemma upper_lower_char c : upper_char (lower_char c) = upper_char c.
Proof. by destruct c as [[] [] [] [] [] [] [] []]. Qed.

Lemma lower_upper_char c : lower_char (upper_char c) = lower_char c.
Proof. by destruct c as [[] [] [] [] [] [] [] []]. Qed.

Lemma lower_lower_char c : lower_char (lower_char c) = lower_char c.
Proof. by destruct c as [[] [] [] [] [] [] [] []]. Qed.

Lemma str_map_compose f g h s :
  (forall c, f (g c) = h c) -> str_map f (str_map g s) = str_map h s.
Proof. intros Hc. induction s as [|c s IH]; simpl; [done|]. by rewrite Hc, IH. Qed.

Lemma upper_lower s : upper (lower s) = upper s.
Proof. apply str_map_compose, upper_lower_char. Qed.

Lemma lower_upper s : lower (upper s) = lower s.
Proof. apply str_map_compose, lower_upper_char. Qed.

Lemma lower_lower s : lower (lower s) = lower s.
Proof. apply str_map_compose, lower_lower_char. Qed.

(** Comparing in upper case is comparing in lower case. *)
Lemma upper_eq_iff_lower_eq s t : upper s = upper t <-> lower s = lower t.
Proof.
  split; intros H.
  - by rewrite <- (lower_upper s), H, lower_upper.
  - by rewrite <- (upper_lower s), H, upper_lower.
Qed.

End CaseMapping.

(** ** Membership tests *)

Lemma str_in_elem x l : str_in x l = true <-> x ∈ l.
Proof.
  unfold str_in. rewrite existsb_exists, list_elem_of_In. split.
  - intros (y & Hy & Heq). apply String.eqb_eq in Heq. by subst.
  - intros Hx. exists x. split; [done|]. apply String.eqb_refl.
Qed.

Lemma str_in_not_elem x l : str_in x l = false <-> x ∉ l.
Proof. rewrite <- str_in_elem. by destruct (str_in x l). Qed.

Lemma opt_str_in_hemisphere h :
  opt_str_in h [Some "left"; Some "right"; None]
  = match h with Some x => str_in x ["left"; "right"] | None => true end.
Proof. destruct h as [x|]; simpl; [|done]. by rewrite !orb_false_r. Qed.

(** ** The namer as a decision tree *)

Lemma make_fs_key_unfold structure hemisphere :
  make_fs_key structure hemisphere =
    if str_in (lower structure) structures then
      match hemisphere with
      | Some h =>
          if str_in (lower h) ["left"; "right"] then
            if String.eqb (upper structure) "BRAIN_STEM" then Raise AssertionError
            else Return (upper structure +:+ "_" +:+ upper h)
          else Raise AssertionError
      | None =>
          if String.eqb (upper structure) "BRAIN_STEM" then Return "BRAIN_STEM"
          else Raise AssertionError
      end
    else Raise AssertionError.
Proof.
  unfold make_fs_key.
  destruct (str_in (lower structure) structures); [|done].
  rewrite opt_str_in_hemisphere.
  destruct hemisphere as [h|]; cbn [option_map py_assert mbind result_bind rbind].
  - destruct (str_in (lower h) ["left"; "right"]); [|done].
    cbn [py_assert mbind result_bind rbind].
    destruct (String.eqb_spec (upper structure) "BRAIN_STEM"); [done|].
    cbn. by rewrite upper_lower.
  - destruct (String.eqb_spec (upper structure) "BRAIN_STEM") as [->|]; done.
Qed.

Lemma upper_brain_stem s : upper s = "BRAIN_STEM" <-> lower s = "brain_stem".
Proof. apply (upper_eq_iff_lower_eq s "brain_stem"). Qed.

Lemma make_fs_key_raises structure hemisphere e :
  make_fs_key structure hemisphere = Raise e -> e = AssertionError.
Proof.
  rewrite make_fs_key_unfold. intros H.
  repeat case_match; congruence.
Qed.

(** The namer compares and builds in a fixed case: it cannot tell an input
    from its lower-case form. *)
Lemma make_fs_key_case structure hemisphere :
  make_fs_key structure hemisphere
  = make_fs_key (lower structure) (option_map lower hemisphere).
Proof.
  rewrite !make_fs_key_unfold, lower_lower, upper_lower.
  destruct hemisphere as [h|]; simpl; [|done].
  by rewrite lower_lower, upper_lower.
Qed.

(** ** Structure namer *)

Ltac enum_elem H :=
  repeat (apply elem_of_cons in H as [H|H]); [..|by apply elem_of_nil in H].

Example make_fs_key_cortex_left :
  make_fs_key "cortex" (Some "left") = Return "CORTEX_LEFT".
Proof. reflexivity. Qed.

Example make_fs_key_cortex_right :
  make_fs_key "cortex" (Some "right") = Return "CORTEX_RIGHT".
Proof. reflexivity. Qed.

Example make_fs_key_mixed_case :
  make_fs_key "Diencephalon_Ventral" (Some "RIGHT")
  = Return "DIENCEPHALON_VENTRAL_RIGHT".
Proof. reflexivity. Qed.

(** C1. For a structure of the fixed set other than brain_stem and a
    hemisphere left or right, both matched without regard to case,
    [make_fs_key] returns the structure in upper case, an underscore and the
    hemisphere in upper case; and [make_fs_key('brain_stem', None)] returns
    ['BRAIN_STEM']. *)
Theorem make_fs_key_label :
  (forall structure hemisphere : string,
      lower structure ∈ structures ->
      lower structure <> "brain_stem" ->
      lower hemisphere ∈ ["left"; "right"] ->
      make_fs_key structure (Some hemisphere)
      = Return (upper structure +:+ "_" +:+ upper hemisphere))
  /\ make_fs_key "brain_stem" None = Return "BRAIN_STEM".
Proof.
  split; [|reflexivity].
  intros structure hemisphere Hs Hbs Hh.
  rewrite make_fs_key_unfold.
  apply str_in_elem in Hs, Hh. rewrite Hs, Hh.
  destruct (String.eqb_spec (upper structure) "BRAIN_STEM") as [Hu|]; [|done].
  by apply upper_brain_stem in Hu.
Qed.

Lemma make_fs_key_label_witness :
  make_fs_key "Thalamus" (Some "LEFT") = Return "THALAMUS_LEFT".
Proof.
  apply (proj1 make_fs_key_label "Thalamus" "LEFT").
  - by apply str_in_elem.
  - discriminate.
  - by apply str_in_elem.
Defined.

(** C2. [make_fs_key] raises exactly when the structure in lower case is not
    in the fixed set, or the hemisphere is given and is neither left nor
    right, or no hemisphere is given for a structure other than brain_stem,
    or a hemisphere left or right is given for brain_stem. *)
Theorem make_fs_key_fails_iff :
  (forall (structure : string) (hemisphere : option string),
      make_fs_key structure hemisphere = Raise AssertionError <->
      lower structure ∉ structures
      \/ (exists h, hemisphere = Some h /\ lower h ∉ ["left"; "right"])
      \/ (hemisphere = None /\ lower structure <> "brain_stem")
      \/ (exists h, hemisphere = Some h /\ lower h ∈ ["left"; "right"]
                    /\ lower structure = "brain_stem"))
  /\ (forall structure hemisphere e,
        make_fs_key structure hemisphere = Raise e -> e = AssertionError)
  /\ make_fs_key "brain_stem" (Some "left") = Raise AssertionError
  /\ make_fs_key "made_up_structure" None = Raise AssertionError.
Proof.
  split; [|split; [apply make_fs_key_raises|split; reflexivity]].
  intros structure hemisphere. rewrite make_fs_key_unfold.
  destruct (str_in (lower structure) structures) eqn:Hs.
  2:{ apply str_in_not_elem in Hs. split; auto. }
  apply str_in_elem in Hs.
  destruct hemisphere as [h|].
  - destruct (str_in (lower h) ["left"; "right"]) eqn:Hh.
    + apply str_in_elem in Hh.
      destruct (String.eqb_spec (upper structure) "BRAIN_STEM") as [Hu|Hu];
        rewrite upper_brain_stem in Hu.
      * split; [|done]. intros _. do 3 right. by exists h.
      * split; [done|]. intros [?|[(h' & [= <-] & ?)|[[? _]|(h' & _ & _ & ?)]]]; done.
    + apply str_in_not_elem in Hh. split; [|done].
      intros _. right; left. by exists h.
  - destruct (String.eqb_spec (upper structure) "BRAIN_STEM") as [Hu|Hu];
      rewrite upper_brain_stem in Hu.
    + split; [done|]. intros [?|[(h' & ? & _)|[[_ ?]|(h' & ? & _)]]]; done.
    + split; [|done]. intros _. do 2 right; left. done.
Qed.

Lemma make_fs_key_fails_iff_witness :
  make_fs_key "cortex" None = Raise AssertionError.
Proof.
  apply (proj2 (proj1 make_fs_key_fails_iff "cortex" None)).
  right; right; left. split; [reflexivity|discriminate].
Defined.

(** C3. Every label [make_fs_key] returns is one of the 21 canonical labels
    of [freesurfer_structures]. *)
Theorem make_fs_key_in_freesurfer_structures :
  forall (structure : string) (hemisphere : option string) (label : string),
    make_fs_key structure hemisphere = Return label ->
    label ∈ freesurfer_structures /\ length freesurfer_structures = 21%nat.
Proof.
  intros structure hemisphere label H. split; [|reflexivity].
  rewrite make_fs_key_unfold in H.
  destruct (str_in (lower structure) structures) eqn:Hs; [|done].
  apply str_in_elem in Hs.
  destruct hemisphere as [h|].
  - destruct (str_in (lower h) ["left"; "right"]) eqn:Hh; [|done].
    apply str_in_elem in Hh.
    destruct (String.eqb_spec (upper structure) "BRAIN_STEM") as [|Hu]; [done|].
    rewrite upper_brain_stem in Hu. injection H as <-.
    rewrite <- (upper_lower structure), <- (upper_lower h).
    enum_elem Hs; try done; enum_elem Hh; rewrite Hs, Hh;
      apply str_in_elem; reflexivity.
  - destruct (String.eqb (upper structure) "BRAIN_STEM"); [|done].
    injection H as <-. by apply str_in_elem.
Qed.

Lemma make_fs_key_in_freesurfer_structures_witness :
  "PUTAMEN_RIGHT" ∈ freesurfer_structures /\ length freesurfer_structures = 21%nat.
Proof.
  apply (make_fs_key_in_freesurfer_structures "putamen" (Some "Right")).
  reflexivity.
Defined.

(** ** The namer is one-to-one onto the canonical labels *)

Lemma valid_inputs_spec structure hemisphere :
  is_return (make_fs_key structure hemisphere) = true <->
  (lower structure, option_map lower hemisphere) ∈ valid_inputs.
Proof.
  unfold valid_inputs. rewrite list_elem_of_In, filter_In, in_prod_iff.
  cbn [fst snd]. rewrite <- make_fs_key_case, <- !list_elem_of_In.
  split; [|tauto].
  intros H. split; [|done]. rewrite make_fs_key_unfold in H.
  destruct (str_in (lower structure) structures) eqn:Hs; [|done].
  apply str_in_elem in Hs. split; [done|].
  destruct hemisphere as [h|]; simpl; [|by do 2 right; left].
  destruct (str_in (lower h) ["left"; "right"]) eqn:Hh; [|done].
  apply str_in_elem in Hh. enum_elem Hh; rewrite Hh.
  + left.
  + right; left.
Qed.

Lemma valid_inputs_distinct_labels :
  Forall (fun i => Forall (fun j =>
            make_fs_key i.1 i.2 = make_fs_key j.1 j.2 -> i = j) valid_inputs)
         valid_inputs.
Proof. compute_done. Qed.

Lemma freesurfer_structures_reached :
  Forall (fun label => Exists (fun i => make_fs_key i.1 i.2 = Return label)
                              valid_inputs)
         freesurfer_structures.
Proof. compute_done. Qed.

(** C9. Up to case there are 21 inputs on which [make_fs_key] returns; two
    inputs with the same label are the same up to case; and each of the 21
    distinct members of [freesurfer_structures] is the label of one of
    them. *)
Theorem make_fs_key_bijection :
  (length valid_inputs = 21%nat /\ NoDup valid_inputs)
  /\ (forall structure hemisphere,
        is_return (make_fs_key structure hemisphere) = true <->
        (lower structure, option_map lower hemisphere) ∈ valid_inputs)
  /\ (forall s1 h1 s2 h2 label,
        make_fs_key s1 h1 = Return label ->
        make_fs_key s2 h2 = Return label ->
        lower s1 = lower s2 /\ option_map lower h1 = option_map lower h2)
  /\ (length freesurfer_structures = 21%nat /\ NoDup freesurfer_structures)
  /\ (forall label,
        label ∈ freesurfer_structures ->
        exists structure hemisphere,
          (structure, hemisphere) ∈ valid_inputs
          /\ make_fs_key structure hemisphere = Return label).
Proof.
  split; [split|split; [|split; [|split; [split|]]]].
  - reflexivity.
  - compute_done.
  - apply valid_inputs_spec.
  - intros s1 h1 s2 h2 label H1 H2.
    assert (Hv1 : is_return (make_fs_key s1 h1) = true) by (by rewrite H1).
    assert (Hv2 : is_return (make_fs_key s2 h2) = true) by (by rewrite H2).
    apply valid_inputs_spec in Hv1, Hv2.
    pose proof valid_inputs_distinct_labels as Hd.
    rewrite Forall_forall in Hd. specialize (Hd _ Hv1).
    rewrite Forall_forall in Hd. specialize (Hd _ Hv2). simpl in Hd.
    rewrite <- !make_fs_key_case, H1, H2 in Hd.
    by injection (Hd eq_refl).
  - reflexivity.
  - compute_done.
  - intros label Hl.
    pose proof freesurfer_structures_reached as Hr.
    rewrite Forall_forall in Hr. apply Hr, Exists_exists in Hl.
    destruct Hl as ([s h] & Hin & Hk). by exists s, h.
Qed.

Lemma make_fs_key_bijection_witness :
  lower "CAUDATE" = lower "caudate"
  /\ option_map lower (Some "Left") = option_map lower (Some "LEFT").
Proof.
  apply (proj1 (proj2 (proj2 make_fs_key_bijection))
           "CAUDATE" (Some "Left") "caudate" (Some "LEFT") "CAUDATE_LEFT");
    reflexivity.
Defined.

(** ** Strings and paths *)

Lemma append_cons (x : ascii) (a b : string) :
  String x a +:+ b = String x (a +:+ b).
Proof. reflexivity. Qed.

Lemma append_assoc (a b c : string) : (a +:+ b) +:+ c = a +:+ (b +:+ c).
Proof. induction a as [|x a IH]; [done|]. by rewrite !append_cons, IH. Qed.

Lemma join_tempdir (tempdir name : string) :
  String.prefix "/" name = false -> tempdir <> "" -> ends_with_sep tempdir = false ->
  join tempdir name = tempdir +:+ "/" +:+ name.
Proof.
  intros Hn Ht He. unfold join. rewrite Hn, He.
  by destruct (String.eqb_spec tempdir "").
Qed.

Example join_tmp : join "/tmp" "volume.txt" = "/tmp/volume.txt".
Proof. reflexivity. Qed.

(** The command lines the exporter builds are the specification's base
    command and suffixes, separated by spaces. *)
Lemma subcortex_command image volume :
  str_format "wb_command -cifti-export-dense-mapping '{}' COLUMN " image
    +:+ str_format " -volume-all '{}' -structure " volume
  = base_command image +:+ "  " +:+ subcortex_suffix volume +:+ " ".
Proof.
  unfold base_command, subcortex_suffix. cbn [str_format].
  rewrite !append_cons, !append_assoc. reflexivity.
Qed.

Lemma cortex_left_command image left :
  str_format "wb_command -cifti-export-dense-mapping '{}' COLUMN " image
    +:+ str_format "-surface CORTEX_LEFT '{}'" left
  = base_command image +:+ " " +:+ cortex_left_suffix left.
Proof.
  unfold base_command, cortex_left_suffix. cbn [str_format].
  rewrite !append_cons, !append_assoc. reflexivity.
Qed.

Lemma cortex_right_command image right :
  str_format "wb_command -cifti-export-dense-mapping '{}' COLUMN " image
    +:+ str_format "-surface CORTEX_RIGHT '{}'" right
  = base_command image +:+ " " +:+ cortex_right_suffix right.
Proof.
  unfold base_command, cortex_right_suffix. cbn [str_format].
  rewrite !append_cons, !append_assoc. reflexivity.
Qed.

(** ** One run of the exporter *)

Lemma bind_gettempdir {A : Type} (k : string -> M A) (os : OS) :
  (gettempdir ≫= k) os = k (os_tempdir os) os.
Proof. reflexivity. Qed.

Lemma bind_system {A : Type} (shell : Shell) (cmd : string) (k : Z -> M A)
    (os : OS) :
  (system shell cmd ≫= k) os
  = k (shell cmd (os_files os)).1
      (log (EvSystem cmd (shell cmd (os_files os)).1)
           (with_files (shell cmd (os_files os)).2 os)).
Proof.
  unfold mbind, M_bind, system. by destruct (shell cmd (os_files os)).
Qed.

Lemma system_commands_app t1 t2 :
  system_commands (t1 ++ t2) = system_commands t1 ++ system_commands t2.
Proof. apply omap_app. Qed.

Lemma tables_read_app t1 t2 :
  tables_read (t1 ++ t2) = tables_read t1 ++ tables_read t2.
Proof. apply omap_app. Qed.

Lemma system_commands_read t path :
  system_commands (t ++ [EvReadTable path]) = system_commands t.
Proof. rewrite system_commands_app. apply app_nil_r. Qed.

Lemma tables_read_read t path :
  tables_read (t ++ [EvReadTable path]) = tables_read t ++ [path].
Proof. by rewrite tables_read_app. Qed.

Lemma system_commands_run shell cmds fs :
  system_commands (zip_with EvSystem cmds (statuses shell cmds fs)) = cmds.
Proof.
  revert fs. induction cmds as [|cmd cmds IH]; intros fs; [done|].
  cbn [statuses zip_with]. change (system_commands (?e :: ?t))
    with (option_list (match e with EvSystem c _ => Some c | _ => None end)
            ++ system_commands t); cbn beta iota.
  by rewrite IH.
Qed.

Lemma tables_read_run shell cmds fs :
  tables_read (zip_with EvSystem cmds (statuses shell cmds fs)) = [].
Proof.
  revert fs. induction cmds as [|cmd cmds IH]; intros fs; [done|].
  cbn [statuses zip_with]. change (tables_read (?e :: ?t))
    with (option_list (match e with EvReadTable q => Some q | _ => None end)
            ++ tables_read t); cbn beta iota.
  by rewrite IH.
Qed.

Section ExporterRun.

Variable parcel_labels_lr : string.
Variable shell : Shell.
Variable image : option string.
Variable os : OS.

Let cmds : list string :=
  export_commands (default parcel_labels_lr image) (os_tempdir os).
Let volume : string := join (os_tempdir os) "volume.txt".
Let left : string := join (os_tempdir os) "left.txt".
Let right : string := join (os_tempdir os) "right.txt".
Let run : result (gmap string DataFrame) * OS :=
  export_cifti_mapping parcel_labels_lr shell image os.

(** The three commands run first, whatever they do; the tables are read
    from what they leave. *)
Lemma run_unfold :
  run =
  (subcortex ← read_table volume space ["structure"; "mni_i"; "mni_j"; "mni_k"];
   cortex_left ← read_table left space ["vertex"];
   cortex_right ← read_table right space ["vertex"];
   mret (mapping_of (rename_axis "index" subcortex)
                    (rename_axis "index" cortex_left)
                    (rename_axis "index" cortex_right)))
    (after_commands shell cmds os).
Proof.
  unfold run, export_cifti_mapping. rewrite bind_gettempdir. cbv zeta.
  rewrite subcortex_command, cortex_left_command, cortex_right_command.
  rewrite !bind_system.
  unfold after_commands, cmds, export_commands, files_after, log, with_files.
  cbn [foldl statuses zip_with os_files os_tempdir os_trace].
  rewrite <- !(assoc_L (++)). by destruct image.
Qed.

Ltac run_reads :=
  rewrite run_unfold;
  unfold mbind, M_bind, mret, M_ret, read_table, load_table, result_bind,
    rbind, after_commands, log;
  cbn [os_files os_tempdir os_trace];
  repeat (destruct (table_of_file _ _ _ _);
          cbn [fst snd os_files os_tempdir os_trace]).

(** The value of the call is decided by the three files the commands
    leave. *)
Lemma run_result :
  run.1 =
  (let fs := files_after shell cmds (os_files os) in
   subcortex ← load_table fs volume ["structure"; "mni_i"; "mni_j"; "mni_k"];
   cortex_left ← load_table fs left ["vertex"];
   cortex_right ← load_table fs right ["vertex"];
   mret (mapping_of subcortex cortex_left cortex_right)).
Proof. run_reads; reflexivity. Qed.

Lemma run_files :
  os_files run.2 = files_after shell cmds (os_files os).
Proof. run_reads; reflexivity. Qed.

Lemma run_tempdir : os_tempdir run.2 = os_tempdir os.
Proof. run_reads; reflexivity. Qed.

Lemma run_system_commands :
  system_commands (os_trace run.2) = system_commands (os_trace os) ++ cmds.
Proof.
  run_reads;
    by rewrite ?system_commands_read, system_commands_app, system_commands_run.
Qed.

Lemma run_tables_read :
  exists n, (1 <= n)%nat
    /\ tables_read (os_trace run.2)
       = tables_read (os_trace os) ++ take n [volume; left; right].
Proof.
  run_reads;
    rewrite ?tables_read_read, tables_read_app, tables_read_run, app_nil_r,
      <- ?(assoc_L (++)).
  - exists 3%nat. split; [lia|done].
  - exists 3%nat. split; [lia|done].
  - exists 2%nat. split; [lia|done].
  - exists 1%nat. split; [lia|done].
Qed.

End ExporterRun.

(** ** Reading back a rendered table *)

Lemma has_char_append c a b :
  has_char c (a +:+ b) = has_char c a || has_char c b.
Proof.
  induction a as [|x a IH]; [done|].
  rewrite append_cons. cbn [has_char]. by rewrite IH, orb_assoc.
Qed.

Lemma split_on_plain sep f :
  has_char sep f = false -> split_on sep f = [f].
Proof.
  induction f as [|c f IH]; [done|]. cbn [has_char split_on].
  intros [Hc Hf]%orb_false_elim. by rewrite Hc, (IH Hf).
Qed.

Lemma split_on_append sep f rest :
  has_char sep f = false ->
  split_on sep (f +:+ String sep rest) = f :: split_on sep rest.
Proof.
  induction f as [|c f IH].
  - intros _. change ("" +:+ String sep rest) with (String sep rest).
    cbn [split_on]. by rewrite Ascii.eqb_refl.
  - cbn [has_char]. intros [Hc Hf]%orb_false_elim.
    rewrite append_cons. cbn [split_on]. by rewrite Hc, (IH Hf).
Qed.

Lemma split_on_join_fields sep key cells :
  has_char sep key = false ->
  forallb (fun f => negb (has_char sep f)) cells = true ->
  split_on sep (join_fields sep key cells) = key :: cells.
Proof.
  revert key. induction cells as [|c cells IH]; intros key Hk Hcs.
  - by apply split_on_plain.
  - cbn [forallb] in Hcs. apply andb_prop in Hcs as [Hc Hcs].
    apply negb_true_iff in Hc. cbn [join_fields].
    by rewrite split_on_append, IH.
Qed.

Lemma has_char_join_fields c sep key cells :
  Ascii.eqb sep c = false ->
  has_char c key = false ->
  forallb (fun f => negb (has_char c f)) cells = true ->
  has_char c (join_fields sep key cells) = false.
Proof.
  intros Hsep. revert key. induction cells as [|f cells IH]; intros key Hk Hcs.
  - done.
  - cbn [forallb] in Hcs. apply andb_prop in Hcs as [Hf Hcs].
    apply negb_true_iff in Hf. cbn [join_fields].
    rewrite has_char_append, Hk. cbn [has_char]. by rewrite Hsep, IH.
Qed.

Lemma nonblank_join_fields sep key cell cells :
  nonblank (join_fields sep key (cell :: cells)) = true.
Proof. cbn [join_fields]. by destruct key. Qed.

Lemma plain_fields_forallb (c : ascii) (cells : list string) :
  (forall f, plain_field f = true -> has_char c f = false) ->
  forallb plain_field cells = true ->
  forallb (fun f => negb (has_char c f)) cells = true.
Proof.
  intros Hp. rewrite !forallb_forall. intros H f Hf.
  apply negb_true_iff, Hp, H, Hf.
Qed.

Lemma plain_field_space f : plain_field f = true -> has_char space f = false.
Proof. unfold plain_field. intros [H _]%andb_prop. by apply negb_true_iff. Qed.

Lemma plain_field_newline f : plain_field f = true -> has_char newline f = false.
Proof. unfold plain_field. intros [_ H]%andb_prop. by apply negb_true_iff. Qed.

(** A well-formed row is read back from its line. *)
Lemma parse_row_join_fields width key cells :
  length cells = width ->
  plain_field key = true -> forallb plain_field cells = true ->
  parse_row space width (join_fields space key cells) = Some (key, cells).
Proof.
  intros Hw Hk Hcs. unfold parse_row.
  rewrite split_on_join_fields.
  - apply Nat.eqb_eq in Hw. by rewrite Hw.
  - by apply plain_field_space.
  - by apply plain_fields_forallb; [apply plain_field_space|].
Qed.

(** The lines of a rendered table are its rows, in order. *)
Lemma lines_of_render width rows :
  (0 < width)%nat -> well_formed width rows = true ->
  filter (fun l => nonblank l = true) (split_on newline (render rows))
  = map (fun row => join_fields space row.1 row.2) rows.
Proof.
  intros Hpos. induction rows as [|[key cells] rows IH]; intros Hwf.
  - reflexivity.
  - cbn [well_formed forallb fst snd] in Hwf.
    apply andb_prop in Hwf as [[[Hw Hk]%andb_prop Hcs]%andb_prop Hwf].
    apply Nat.eqb_eq in Hw. cbn [render map fst snd].
    rewrite split_on_append.
    2:{ apply has_char_join_fields; [done|by apply plain_field_newline|].
        by apply plain_fields_forallb; [apply plain_field_newline|]. }
    destruct cells as [|cell cells]; [simpl in Hw; lia|].
    rewrite filter_cons_True by apply nonblank_join_fields.
    f_equal. by apply IH.
Qed.

Lemma mapM_parse_row width rows :
  well_formed width rows = true ->
  mapM (parse_row space width)
       (map (fun row => join_fields space row.1 row.2) rows)
  = Some rows.
Proof.
  induction rows as [|[key cells] rows IH]; intros Hwf; [done|].
  cbn [well_formed forallb fst snd] in Hwf.
  apply andb_prop in Hwf as [[[Hw Hk]%andb_prop Hcs]%andb_prop Hwf].
  apply Nat.eqb_eq in Hw. cbn [map fst snd mapM].
  rewrite parse_row_join_fields by done. cbn. by rewrite (IH Hwf).
Qed.

(** The parser reads a rendered table back: its rows are the rows rendered,
    keyed by their first field, under the given column names. *)
Lemma parse_table_render names rows :
  (0 < length names)%nat -> well_formed (length names) rows = true ->
  parse_table space names (render rows)
  = Some {| df_axis := None; df_columns := names; df_rows := rows |}.
Proof.
  intros Hpos Hwf. unfold parse_table.
  rewrite (lines_of_render (length names)) by done.
  by rewrite mapM_parse_row.
Qed.

(** ** Mapping exporter *)

Lemma files_after_with_status status shell cmds fs :
  files_after (with_status status shell) cmds fs = files_after shell cmds fs.
Proof.
  unfold files_after. revert fs.
  induction cmds as [|cmd cmds IH]; intros fs; [done|]. apply IH.
Qed.

Lemma load_table_raise fs path names e :
  load_table fs path names = Raise e ->
  (e = FileNotFoundError path /\ fs !! path = None)
  \/ (e = ParserError path /\ is_Some (fs !! path)).
Proof.
  unfold load_table, table_of_file.
  destruct (fs !! path) as [text|].
  - destruct (parse_table space names text); [done|].
    intros [= <-]. right. eauto.
  - intros [= <-]. by left.
Qed.

Lemma load_table_render fs path names rows :
  (0 < length names)%nat -> well_formed (length names) rows = true ->
  fs !! path = Some (render rows) ->
  load_table fs path names
  = Return {| df_axis := Some "index"; df_columns := names; df_rows := rows |}.
Proof.
  intros Hpos Hwf Hfile. unfold load_table, table_of_file.
  by rewrite Hfile, parse_table_render.
Qed.

Lemma load_table_agree fs1 fs2 path names :
  fs1 !! path = fs2 !! path -> load_table fs1 path names = load_table fs2 path names.
Proof. unfold load_table, table_of_file. by intros ->. Qed.

(** C5. Whatever the commands do, the exporter calls the shell three times,
    for the subcortex, the left cortex and the right cortex in this order:
    each time with the base command on the image, then the suffix of the
    region, with spaces between them and after [-structure], where nothing
    else follows. *)
Theorem export_cifti_mapping_commands :
  forall (parcel_labels_lr : string) (shell : Shell) (image : option string)
         (os : OS),
    let used := default parcel_labels_lr image in
    let volume := join (os_tempdir os) "volume.txt" in
    let left := join (os_tempdir os) "left.txt" in
    let right := join (os_tempdir os) "right.txt" in
    system_commands
      (os_trace (export_cifti_mapping parcel_labels_lr shell image os).2)
    = system_commands (os_trace os)
      ++ [ base_command used +:+ "  " +:+ subcortex_suffix volume +:+ " ";
           base_command used +:+ " " +:+ cortex_left_suffix left;
           base_command used +:+ " " +:+ cortex_right_suffix right ].
Proof. intros. apply run_system_commands. Qed.

Example export_commands_tmp :
  export_commands "a.dscalar.nii" "/tmp" =
  [ "wb_command -cifti-export-dense-mapping 'a.dscalar.nii' COLUMN  -volume-all '/tmp/volume.txt' -structure ";
    "wb_command -cifti-export-dense-mapping 'a.dscalar.nii' COLUMN -surface CORTEX_LEFT '/tmp/left.txt'";
    "wb_command -cifti-export-dense-mapping 'a.dscalar.nii' COLUMN -surface CORTEX_RIGHT '/tmp/right.txt'" ].
Proof. reflexivity. Qed.

(** C6. Without an image the exporter runs as if it had been given
    [parcel_labels_lr], which is then the image of all three commands; with
    an image, that path is the image of all three commands. *)
Theorem export_cifti_mapping_default_image :
  forall (parcel_labels_lr : string) (shell : Shell) (os : OS),
    export_cifti_mapping parcel_labels_lr shell None os
    = export_cifti_mapping parcel_labels_lr shell (Some parcel_labels_lr) os
    /\ system_commands
         (os_trace (export_cifti_mapping parcel_labels_lr shell None os).2)
       = system_commands (os_trace os)
         ++ export_commands parcel_labels_lr (os_tempdir os)
    /\ (forall image : string,
          system_commands
            (os_trace
               (export_cifti_mapping parcel_labels_lr shell (Some image) os).2)
          = system_commands (os_trace os)
            ++ export_commands image (os_tempdir os))
    /\ (forall image tempdir : string,
          Forall (fun cmd => exists suffix, cmd = base_command image +:+ suffix)
                 (export_commands image tempdir)).
Proof.
  intros. split; [reflexivity|]. split; [|split].
  - apply (run_system_commands _ _ None).
  - intros image. apply (run_system_commands _ _ (Some image)).
  - intros image tempdir. unfold export_commands.
    repeat (apply List.Forall_cons; [by eexists|]). apply List.Forall_nil.
Qed.

(** C10. With an image given, the configured default has no influence: the
    value of the call, the commands it runs and the system it leaves are
    the same under any two defaults. *)
Theorem export_cifti_mapping_ignores_default :
  forall (default1 default2 : string) (shell : Shell) (image : string) (os : OS),
    let run1 := export_cifti_mapping default1 shell (Some image) os in
    let run2 := export_cifti_mapping default2 shell (Some image) os in
    run1 = run2
    /\ run1.1 = run2.1
    /\ system_commands (os_trace run1.2) = system_commands (os_trace run2.2)
    /\ system_commands (os_trace run1.2)
       = system_commands (os_trace os) ++ export_commands image (os_tempdir os).
Proof.
  intros default1 default2 shell image os run1 run2.
  assert (Heq : run1 = run2) by reflexivity.
  split; [exact Heq|]. rewrite <- Heq. split; [done|]. split; [done|].
  apply (run_system_commands default1 shell (Some image) os).
Qed.

Lemma prefix_append (a rest : string) : String.prefix a (a +:+ rest) = true.
Proof.
  induction a as [|c a IH]; [by destruct rest|].
  rewrite append_cons. cbn [String.prefix].
  by destruct (ascii_dec c c).
Qed.

Lemma join_in_tempdir (tempdir name : string) :
  String.prefix "/" name = false ->
  join tempdir name
  = tempdir
    +:+ (if String.eqb tempdir "" || ends_with_sep tempdir then "" else "/")
    +:+ name.
Proof.
  intros Hn. unfold join. rewrite Hn.
  by destruct (String.eqb tempdir "" || ends_with_sep tempdir).
Qed.

(** C8. The files named to the tool and read back are [volume.txt],
    [left.txt] and [right.txt] in the temporary directory, whatever the image
    and whatever was done before: each path is the temporary directory, a
    [/] unless the directory is empty or ends with one, and the fixed name;
    for a directory such as [/tmp] that is [<tempdir>/volume.txt],
    [<tempdir>/left.txt] and [<tempdir>/right.txt]. The commands carry these
    paths and the reads go to them. The temporary directory stays the same;
    and when the call ends, by return or by exception, every file is as the
    third command left it: the exporter removes none. *)
Theorem export_cifti_mapping_temp_files :
  forall (parcel_labels_lr : string) (shell : Shell) (image : option string)
         (os : OS),
    let run := export_cifti_mapping parcel_labels_lr shell image os in
    let tempdir := os_tempdir os in
    let used := default parcel_labels_lr image in
    let cmds := export_commands used tempdir in
    let sep : string :=
      if String.eqb tempdir "" || ends_with_sep tempdir then "" else "/" in
    let volume := tempdir +:+ sep +:+ "volume.txt" in
    let left := tempdir +:+ sep +:+ "left.txt" in
    let right := tempdir +:+ sep +:+ "right.txt" in
    system_commands (os_trace run.2) = system_commands (os_trace os) ++ cmds
    /\ (exists n, (1 <= n)%nat
          /\ tables_read (os_trace run.2)
             = tables_read (os_trace os)
               ++ take n [ join tempdir "volume.txt"; join tempdir "left.txt";
                           join tempdir "right.txt" ])
    /\ os_tempdir run.2 = tempdir
    /\ os_files run.2 = files_after shell cmds (os_files os)
    /\ (forall path,
          os_files run.2 !! path = files_after shell cmds (os_files os) !! path)
    /\ [ join tempdir "volume.txt"; join tempdir "left.txt";
         join tempdir "right.txt" ] = [volume; left; right]
    /\ system_commands (os_trace run.2)
       = system_commands (os_trace os)
         ++ [ base_command used +:+ "  " +:+ subcortex_suffix volume +:+ " ";
              base_command used +:+ " " +:+ cortex_left_suffix left;
              base_command used +:+ " " +:+ cortex_right_suffix right ]
    /\ (exists n, (1 <= n)%nat
          /\ tables_read (os_trace run.2)
             = tables_read (os_trace os) ++ take n [volume; left; right])
    /\ (tempdir <> "" -> ends_with_sep tempdir = false ->
        volume = tempdir +:+ "/volume.txt"
        /\ left = tempdir +:+ "/left.txt"
        /\ right = tempdir +:+ "/right.txt")
    /\ (forall path, path ∈ [volume; left; right] ->
          String.prefix tempdir path = true
          /\ os_files run.2 !! path
             = files_after shell cmds (os_files os) !! path).
Proof.
  intros d shell image os run tempdir used cmds sep volume left right.
  assert (Hv : join tempdir "volume.txt" = volume)
    by (by unfold volume, sep; rewrite join_in_tempdir).
  assert (Hl : join tempdir "left.txt" = left)
    by (by unfold left, sep; rewrite join_in_tempdir).
  assert (Hr : join tempdir "right.txt" = right)
    by (by unfold right, sep; rewrite join_in_tempdir).
  assert (Hpaths : [ join tempdir "volume.txt"; join tempdir "left.txt";
                     join tempdir "right.txt" ] = [volume; left; right])
    by (by rewrite Hv, Hl, Hr).
  assert (Hcmds : system_commands (os_trace run.2)
                  = system_commands (os_trace os) ++ cmds)
    by apply run_system_commands.
  assert (Hreads : exists n, (1 <= n)%nat
            /\ tables_read (os_trace run.2)
               = tables_read (os_trace os)
                 ++ take n [ join tempdir "volume.txt"; join tempdir "left.txt";
                             join tempdir "right.txt" ])
    by apply run_tables_read.
  assert (Hfiles : os_files run.2 = files_after shell cmds (os_files os))
    by apply run_files.
  split; [exact Hcmds|]. split; [exact Hreads|].
  split; [apply run_tempdir|]. split; [exact Hfiles|].
  split; [by intros path; rewrite Hfiles|].
  split; [exact Hpaths|].
  split.
  { rewrite Hcmds. unfold cmds, export_commands. fold tempdir.
    by rewrite Hv, Hl, Hr. }
  split; [by rewrite <- Hpaths|].
  split.
  { intros Hne Hsep. unfold volume, left, right, sep. rewrite Hsep.
    destruct (String.eqb_spec tempdir ""); [done|].
    split; [|split]; reflexivity. }
  intros path Hin. split; [|by rewrite Hfiles].
  clear Hv Hl Hr Hpaths Hcmds Hreads Hfiles.
  enum_elem Hin; subst path; apply prefix_append.
Qed.

Lemma export_cifti_mapping_temp_files_witness :
  "/tmp" +:+ "/" +:+ "volume.txt" = "/tmp" +:+ "/volume.txt"
  /\ "/tmp" +:+ "/" +:+ "left.txt" = "/tmp" +:+ "/left.txt"
  /\ "/tmp" +:+ "/" +:+ "right.txt" = "/tmp" +:+ "/right.txt".
Proof.
  apply (proj1 (proj2 (proj2 (proj2 (proj2 (proj2 (proj2 (proj2 (proj2
           (export_cifti_mapping_temp_files
              "default.nii" (mock_shell 0) None (mock_os ∅))))))))))).
  - discriminate.
  - reflexivity.
Defined.

Example export_cifti_mapping_reads_in_tmp :
  tables_read
    (os_trace (export_cifti_mapping "default.nii" (mock_shell 0) None
                 (mock_os ∅)).2)
  = ["/tmp/volume.txt"; "/tmp/left.txt"; "/tmp/right.txt"].
Proof. reflexivity. Qed.

(** A tool that writes the volume table only: the call raises on the left
    table and the volume table is still there. *)
Example export_cifti_mapping_raises_and_leaves_files :
  let shell : Shell := fun _ fs => (0, <["/tmp/volume.txt" := "0 A 1 2 3"]> fs) in
  let run := export_cifti_mapping "default.nii" shell None (mock_os ∅) in
  run.1 = Raise (FileNotFoundError "/tmp/left.txt")
  /\ os_files run.2 !! "/tmp/volume.txt" = Some "0 A 1 2 3".
Proof. split; reflexivity. Qed.

Lemma run_by_files parcel_labels_lr shell image os :
  let run := export_cifti_mapping parcel_labels_lr shell image os in
  let fs := os_files run.2 in
  let tempdir := os_tempdir os in
  run.1 =
  (subcortex ← load_table fs (join tempdir "volume.txt")
                 ["structure"; "mni_i"; "mni_j"; "mni_k"];
   cortex_left ← load_table fs (join tempdir "left.txt") ["vertex"];
   cortex_right ← load_table fs (join tempdir "right.txt") ["vertex"];
   mret (mapping_of subcortex cortex_left cortex_right)).
Proof.
  intros run fs tempdir. unfold fs, run.
  rewrite run_files. apply run_result.
Qed.

(** C7. The value of the call, a mapping or an exception, is a function of
    the three files as they are when the commands have run; the exit
    statuses do not enter it. An exception is the one of the first table
    that cannot be read, for a missing or a malformed file, and a table that
    cannot be read always ends the call with an exception. *)
Theorem export_cifti_mapping_exit_status :
  forall (parcel_labels_lr : string) (shell : Shell) (image : option string)
         (os : OS),
    let run := export_cifti_mapping parcel_labels_lr shell image os in
    let fs := os_files run.2 in
    let tempdir := os_tempdir os in
    let files := [ ("volume.txt", ["structure"; "mni_i"; "mni_j"; "mni_k"]);
                   ("left.txt", ["vertex"]); ("right.txt", ["vertex"]) ] in
    run.1 =
      (subcortex ← load_table fs (join tempdir "volume.txt")
                     ["structure"; "mni_i"; "mni_j"; "mni_k"];
       cortex_left ← load_table fs (join tempdir "left.txt") ["vertex"];
       cortex_right ← load_table fs (join tempdir "right.txt") ["vertex"];
       mret (mapping_of subcortex cortex_left cortex_right))
    /\ (forall status : string -> gmap string string -> Z,
          let run' := export_cifti_mapping parcel_labels_lr
                        (with_status status shell) image os in
          run'.1 = run.1 /\ os_files run'.2 = fs)
    /\ (forall parcel_labels_lr' shell' image' os',
          let run' := export_cifti_mapping parcel_labels_lr' shell' image' os' in
          os_tempdir os' = tempdir ->
          (forall file, file ∈ files ->
             os_files run'.2 !! join tempdir file.1 = fs !! join tempdir file.1) ->
          run'.1 = run.1)
    /\ (forall e, run.1 = Raise e ->
          exists file, file ∈ files
            /\ load_table fs (join tempdir file.1) file.2 = Raise e
            /\ ((e = FileNotFoundError (join tempdir file.1)
                 /\ fs !! join tempdir file.1 = None)
                \/ (e = ParserError (join tempdir file.1)
                    /\ is_Some (fs !! join tempdir file.1))))
    /\ (forall file e, file ∈ files ->
          load_table fs (join tempdir file.1) file.2 = Raise e ->
          exists e', run.1 = Raise e').
Proof.
  intros d shell image os run fs tempdir files.
  pose proof (run_by_files d shell image os) as Hrun.
  cbv zeta in Hrun. fold run fs tempdir in Hrun.
  split; [exact Hrun|]. split; [|split; [|split]].
  - intros status run'. unfold run', run, fs, run.
    rewrite !run_result, !run_files.
    by rewrite !files_after_with_status.
  - intros d' shell' image' os' run' Htmp Hfiles.
    pose proof (run_by_files d' shell' image' os') as Hrun'.
    cbv zeta in Hrun'. fold run' in Hrun'. rewrite Htmp in Hrun'.
    rewrite Hrun, Hrun'.
    rewrite (load_table_agree _ fs (join tempdir "volume.txt")),
            (load_table_agree _ fs (join tempdir "left.txt")),
            (load_table_agree _ fs (join tempdir "right.txt")); [done|..].
    + apply (Hfiles ("right.txt", ["vertex"])). unfold files. set_solver.
    + apply (Hfiles ("left.txt", ["vertex"])). unfold files. set_solver.
    + apply (Hfiles ("volume.txt", ["structure"; "mni_i"; "mni_j"; "mni_k"])).
      unfold files. set_solver.
  - intros e. rewrite Hrun.
    destruct (load_table fs (join tempdir "volume.txt") _) as [v|e1] eqn:Hv.
    2:{ intros [= <-]. exists ("volume.txt", ["structure"; "mni_i"; "mni_j"; "mni_k"]).
        split; [unfold files; set_solver|]. split; [done|].
        by apply load_table_raise in Hv. }
    destruct (load_table fs (join tempdir "left.txt") _) as [l|e2] eqn:Hl.
    2:{ intros [= <-]. exists ("left.txt", ["vertex"]).
        split; [unfold files; set_solver|]. split; [done|].
        by apply load_table_raise in Hl. }
    destruct (load_table fs (join tempdir "right.txt") _) as [r|e3] eqn:Hr.
    2:{ intros [= <-]. exists ("right.txt", ["vertex"]).
        split; [unfold files; set_solver|]. split; [done|].
        by apply load_table_raise in Hr. }
    done.
  - intros file e Hin Hload. rewrite Hrun. unfold files in Hin.
    enum_elem Hin; subst file; cbn [fst snd] in Hload.
    + rewrite Hload. by eexists.
    + destruct (load_table fs (join tempdir "volume.txt") _); [|by eexists].
      rewrite Hload. by eexists.
    + destruct (load_table fs (join tempdir "volume.txt") _); [|by eexists].
      destruct (load_table fs (join tempdir "left.txt") _); [|by eexists].
      rewrite Hload. by eexists.
Qed.

Lemma export_cifti_mapping_exit_status_witness :
  (export_cifti_mapping "default.nii" (mock_shell 1) None (mock_os ∅)).1
  = (export_cifti_mapping "default.nii" (mock_shell 0) None (mock_os ∅)).1.
Proof.
  apply (proj1 (proj2 (proj2
           (export_cifti_mapping_exit_status
              "default.nii" (mock_shell 0) None (mock_os ∅))))
           "default.nii" (mock_shell 1) None (mock_os ∅)).
  - reflexivity.
  - intros file Hin. enum_elem Hin; subst file; vm_compute; reflexivity.
Defined.

Example export_cifti_mapping_broken_tool :
  (export_cifti_mapping "default.nii" broken_shell None (mock_os ∅)).1
  = Raise (FileNotFoundError "/tmp/volume.txt").
Proof. reflexivity. Qed.

(** A failed tool goes unnoticed when files of an earlier call are there. *)
Example export_cifti_mapping_stale_files :
  let os1 := (export_cifti_mapping "a.nii" (mock_shell 0) None (mock_os ∅)).2 in
  (export_cifti_mapping "b.nii" broken_shell None os1).1
  = (export_cifti_mapping "a.nii" (mock_shell 0) None (mock_os ∅)).1.
Proof. vm_compute. reflexivity. Qed.

Lemma mapping_of_dom (subcortex cortex_left cortex_right : DataFrame) :
  dom (mapping_of subcortex cortex_left cortex_right)
  = ({["cortex_left"; "cortex_right"; "subcortex"]} : gset string).
Proof. unfold mapping_of. rewrite !dom_insert_L, dom_empty_L. set_solver. Qed.

(** C4. When the three files the tool leaves hold tables of N, M and K
    well-formed rows for the left cortex, the right cortex and the
    subcortex, the exporter returns a mapping with exactly the entries
    [cortex_left], [cortex_right] and [subcortex]; their tables have N, M
    and K rows, in the order of the file, each keyed by the first field of
    its line, with the data columns [vertex] for the cortex tables and
    [structure], [mni_i], [mni_j], [mni_k] for the subcortex table. *)
Theorem export_cifti_mapping_tables :
  forall (parcel_labels_lr : string) (shell : Shell) (image : option string)
         (os : OS) (left_rows right_rows volume_rows : list (string * list string)),
    let run := export_cifti_mapping parcel_labels_lr shell image os in
    let fs := os_files run.2 in
    let tempdir := os_tempdir os in
    well_formed 1 left_rows = true ->
    well_formed 1 right_rows = true ->
    well_formed 4 volume_rows = true ->
    fs !! join tempdir "left.txt" = Some (render left_rows) ->
    fs !! join tempdir "right.txt" = Some (render right_rows) ->
    fs !! join tempdir "volume.txt" = Some (render volume_rows) ->
    exists (maps : gmap string DataFrame) (cortex_left cortex_right subcortex : DataFrame),
      run.1 = Return maps
      /\ dom maps = ({["cortex_left"; "cortex_right"; "subcortex"]} : gset string)
      /\ maps !! "cortex_left" = Some cortex_left
      /\ maps !! "cortex_right" = Some cortex_right
      /\ maps !! "subcortex" = Some subcortex
      /\ (df_nrows cortex_left = length left_rows
          /\ df_nrows cortex_right = length right_rows
          /\ df_nrows subcortex = length volume_rows)
      /\ (df_index cortex_left = left_rows.*1
          /\ df_index cortex_right = right_rows.*1
          /\ df_index subcortex = volume_rows.*1)
      /\ (df_rows cortex_left = left_rows
          /\ df_rows cortex_right = right_rows
          /\ df_rows subcortex = volume_rows)
      /\ (df_columns cortex_left = ["vertex"]
          /\ df_columns cortex_right = ["vertex"]
          /\ df_columns subcortex = ["structure"; "mni_i"; "mni_j"; "mni_k"]).
Proof.
  intros d shell image os left_rows right_rows volume_rows run fs tempdir
         Hl Hr Hv Hleft Hright Hvolume.
  pose proof (run_by_files d shell image os) as Hrun.
  cbv zeta in Hrun. fold run fs tempdir in Hrun.
  rewrite (load_table_render fs (join tempdir "volume.txt")
             ["structure"; "mni_i"; "mni_j"; "mni_k"] volume_rows) in Hrun;
    [|simpl; lia|exact Hv|exact Hvolume].
  rewrite (load_table_render fs (join tempdir "left.txt") ["vertex"] left_rows)
    in Hrun; [|simpl; lia|exact Hl|exact Hleft].
  rewrite (load_table_render fs (join tempdir "right.txt") ["vertex"] right_rows)
    in Hrun; [|simpl; lia|exact Hr|exact Hright].
  eexists _, _, _, _. split; [exact Hrun|].
  split; [apply mapping_of_dom|].
  unfold mapping_of. by simplify_map_eq.
Qed.

Lemma export_cifti_mapping_tables_witness :
  exists (maps : gmap string DataFrame) (cortex_left cortex_right subcortex : DataFrame),
    (export_cifti_mapping "default.nii" (mock_shell 0) None (mock_os ∅)).1
    = Return maps
    /\ dom maps = ({["cortex_left"; "cortex_right"; "subcortex"]} : gset string)
    /\ maps !! "cortex_left" = Some cortex_left
    /\ maps !! "cortex_right" = Some cortex_right
    /\ maps !! "subcortex" = Some subcortex
    /\ (df_nrows cortex_left = 2%nat
        /\ df_nrows cortex_right = 1%nat
        /\ df_nrows subcortex = 3%nat)
    /\ (df_index cortex_left = ["0"; "1"]
        /\ df_index cortex_right = ["29696"]
        /\ df_index subcortex = ["59412"; "59413"; "59547"])
    /\ (df_rows cortex_left = mock_left_rows
        /\ df_rows cortex_right = mock_right_rows
        /\ df_rows subcortex = mock_volume_rows)
    /\ (df_columns cortex_left = ["vertex"]
        /\ df_columns cortex_right = ["vertex"]
        /\ df_columns subcortex = ["structure"; "mni_i"; "mni_j"; "mni_k"]).
Proof.
  apply (export_cifti_mapping_tables "default.nii" (mock_shell 0) None (mock_os ∅)
           mock_left_rows mock_right_rows mock_volume_rows);
    vm_compute; reflexivity.
Defined.

(* ===================================================================== *)
(** * Further properties *)
(* ===================================================================== *)

(** ** Structure namer *)

Lemma upper_upper_char c : upper_char (upper_char c) = upper_char c.
Proof. by destruct c as [[] [] [] [] [] [] [] []]. Qed.

Lemma upper_upper s : upper (upper s) = upper s.
Proof. apply str_map_compose, upper_upper_char. Qed.

Lemma upper_append a b : upper (a +:+ b) = upper a +:+ upper b.
Proof.
  induction a as [|c a IH]; [done|].
  rewrite append_cons. unfold upper in *. cbn [str_map].
  by rewrite IH, append_cons.
Qed.

(** X1. The namer does not see case: two inputs that agree once lowered get
    the same outcome, the same label or the same failure. *)
Theorem make_fs_key_same_up_to_case :
  forall (s1 s2 : string) (h1 h2 : option string),
    lower s1 = lower s2 ->
    option_map lower h1 = option_map lower h2 ->
    make_fs_key s1 h1 = make_fs_key s2 h2.
Proof.
  intros s1 s2 h1 h2 Hs Hh.
  rewrite (make_fs_key_case s1 h1), (make_fs_key_case s2 h2).
  by rewrite Hs, Hh.
Qed.

Lemma make_fs_key_same_up_to_case_witness :
  make_fs_key "HippoCampus" (Some "Right") = make_fs_key "hippocampus" (Some "RIGHT").
Proof.
  apply make_fs_key_same_up_to_case; reflexivity.
Defined.

(** X2. A label the namer returns is in upper case: upper-casing it again
    changes nothing. *)
Theorem make_fs_key_upper_case :
  forall (structure : string) (hemisphere : option string) (label : string),
    make_fs_key structure hemisphere = Return label ->
    upper label = label.
Proof.
  intros structure hemisphere label H.
  rewrite make_fs_key_unfold in H.
  destruct (str_in (lower structure) structures); [|done].
  destruct hemisphere as [h|].
  - destruct (str_in (lower h) ["left"; "right"]); [|done].
    destruct (String.eqb (upper structure) "BRAIN_STEM"); [done|].
    injection H as <-.
    by rewrite !upper_append, !upper_upper.
  - destruct (String.eqb (upper structure) "BRAIN_STEM"); [|done].
    by injection H as <-.
Qed.

Lemma make_fs_key_upper_case_witness :
  upper "AMYGDALA_LEFT" = "AMYGDALA_LEFT".
Proof.
  apply (make_fs_key_upper_case "amygdala" (Some "left")). reflexivity.
Defined.

(** X3. Every name listed in [structures] is accepted as it is written:
    [brain_stem] without a hemisphere, each other name with [left] and with
    [right], giving the name in upper case with the hemisphere's suffix. *)
Theorem structures_all_accepted :
  forall structure : string,
    structure ∈ structures ->
    if String.eqb structure "brain_stem"
    then make_fs_key structure None = Return "BRAIN_STEM"
    else make_fs_key structure (Some "left") = Return (upper structure +:+ "_LEFT")
         /\ make_fs_key structure (Some "right")
            = Return (upper structure +:+ "_RIGHT").
Proof.
  intros structure Hin. unfold structures in Hin.
  enum_elem Hin; subst structure; cbn [String.eqb Ascii.eqb Bool.eqb];
    first [reflexivity | split; reflexivity].
Qed.

Lemma structures_all_accepted_witness :
  make_fs_key "pallidum" (Some "left") = Return (upper "pallidum" +:+ "_LEFT")
  /\ make_fs_key "pallidum" (Some "right") = Return (upper "pallidum" +:+ "_RIGHT").
Proof.
  apply (structures_all_accepted "pallidum"). by apply str_in_elem.
Defined.

(** X4. The index counts fit together: the cortical and subcortical counts
    add up to the number of CIFTI indices, and neither hemisphere has more
    indices than a hemisphere has vertices. *)
Theorem index_counts_consistent :
  N_INDEX_CORTEX_LEFT + N_INDEX_CORTEX_RIGHT + N_INDEX_SUBCORTEX = N_CIFTI_INDEX
  /\ N_INDEX_CORTEX_LEFT <= N_VERTEX_HEMISPHERE
  /\ N_INDEX_CORTEX_RIGHT <= N_VERTEX_HEMISPHERE.
Proof.
  unfold N_INDEX_CORTEX_LEFT, N_INDEX_CORTEX_RIGHT, N_INDEX_SUBCORTEX,
    N_CIFTI_INDEX, N_VERTEX_HEMISPHERE. lia.
Qed.

(** ** Mapping exporter *)

(** The whole run: the commands, then the tables one after the other until
    one cannot be read. *)
Lemma run_full parcel_labels_lr shell image os :
  let tempdir := os_tempdir os in
  let cmds := export_commands (default parcel_labels_lr image) tempdir in
  let fs := files_after shell cmds (os_files os) in
  let os3 := after_commands shell cmds os in
  let volume := join tempdir "volume.txt" in
  let left := join tempdir "left.txt" in
  let right := join tempdir "right.txt" in
  export_cifti_mapping parcel_labels_lr shell image os =
  match load_table fs volume ["structure"; "mni_i"; "mni_j"; "mni_k"] with
  | Raise e => (Raise e, log (EvReadTable volume) os3)
  | Return v =>
      match load_table fs left ["vertex"] with
      | Raise e => (Raise e, log (EvReadTable left) (log (EvReadTable volume) os3))
      | Return l =>
          let os6 := log (EvReadTable right)
                       (log (EvReadTable left) (log (EvReadTable volume) os3)) in
          match load_table fs right ["vertex"] with
          | Raise e => (Raise e, os6)
          | Return r => (Return (mapping_of v l r), os6)
          end
      end
  end.
Proof.
  intros tempdir cmds fs os3 volume left right.
  rewrite run_unfold.
  unfold mbind, M_bind, mret, M_ret, read_table, load_table, result_bind, rbind.
  fold tempdir cmds volume left right os3.
  change (os_files (log (EvReadTable left) (log (EvReadTable volume) os3)))
    with fs.
  change (os_files (log (EvReadTable volume) os3)) with fs.
  change (os_files os3) with fs.
  by repeat destruct (table_of_file fs _ _ _).
Qed.

(** X5. All three commands run before the first table is read, and they run
    whatever happens afterwards: the trace of a call is the trace before it,
    then the three commands with the exit statuses they gave, then between
    one and three reads, of the volume, the left and the right file in this
    order. *)
Theorem export_cifti_mapping_trace :
  forall (parcel_labels_lr : string) (shell : Shell) (image : option string)
         (os : OS),
    let run := export_cifti_mapping parcel_labels_lr shell image os in
    let tempdir := os_tempdir os in
    let cmds := export_commands (default parcel_labels_lr image) tempdir in
    exists n, (1 <= n <= 3)%nat
      /\ os_trace run.2
         = os_trace os
           ++ zip_with EvSystem cmds (statuses shell cmds (os_files os))
           ++ (EvReadTable <$> take n [ join tempdir "volume.txt";
                                        join tempdir "left.txt";
                                        join tempdir "right.txt" ]).
Proof.
  intros d shell image os run tempdir cmds. unfold run.
  rewrite run_full. cbv zeta. fold tempdir cmds.
  destruct (load_table _ (join tempdir "volume.txt") _).
  2:{ exists 1%nat. split; [lia|]. cbn. by rewrite <- (assoc_L (++)). }
  destruct (load_table _ (join tempdir "left.txt") _).
  2:{ exists 2%nat. split; [lia|]. cbn. by rewrite <- !(assoc_L (++)). }
  destruct (load_table _ (join tempdir "right.txt") _);
    (exists 3%nat; split; [lia|]; cbn; by rewrite <- !(assoc_L (++))).
Qed.

(** X6. The tables are read in the order volume, left, right, and the first
    that cannot be read ends the call with its exception: the later files are
    not read, and a table read before is dropped. *)
Theorem export_cifti_mapping_first_failure :
  forall (parcel_labels_lr : string) (shell : Shell) (image : option string)
         (os : OS),
    let run := export_cifti_mapping parcel_labels_lr shell image os in
    let fs := os_files run.2 in
    let tempdir := os_tempdir os in
    let volume := join tempdir "volume.txt" in
    let left := join tempdir "left.txt" in
    let right := join tempdir "right.txt" in
    (forall e,
        load_table fs volume ["structure"; "mni_i"; "mni_j"; "mni_k"] = Raise e ->
        run.1 = Raise e
        /\ tables_read (os_trace run.2) = tables_read (os_trace os) ++ [volume])
    /\ (forall v e,
          load_table fs volume ["structure"; "mni_i"; "mni_j"; "mni_k"] = Return v ->
          load_table fs left ["vertex"] = Raise e ->
          run.1 = Raise e
          /\ tables_read (os_trace run.2)
             = tables_read (os_trace os) ++ [volume; left])
    /\ (forall v l e,
          load_table fs volume ["structure"; "mni_i"; "mni_j"; "mni_k"] = Return v ->
          load_table fs left ["vertex"] = Return l ->
          load_table fs right ["vertex"] = Raise e ->
          run.1 = Raise e
          /\ tables_read (os_trace run.2)
             = tables_read (os_trace os) ++ [volume; left; right])
    /\ (forall v l r,
          load_table fs volume ["structure"; "mni_i"; "mni_j"; "mni_k"] = Return v ->
          load_table fs left ["vertex"] = Return l ->
          load_table fs right ["vertex"] = Return r ->
          run.1 = Return (mapping_of v l r)
          /\ tables_read (os_trace run.2)
             = tables_read (os_trace os) ++ [volume; left; right]).
Proof.
  intros d shell image os run fs tempdir volume left right.
  assert (Hfs : fs = files_after shell
                       (export_commands (default d image) tempdir) (os_files os))
    by apply run_files.
  pose proof (run_full d shell image os) as Hrun. cbv zeta in Hrun.
  fold run tempdir volume left right in Hrun. rewrite <- Hfs in Hrun.
  assert (Hreads : forall paths,
             tables_read (foldl (fun t p => t ++ [EvReadTable p])
                            (os_trace (after_commands shell
                               (export_commands (default d image) tempdir) os))
                            paths)
             = tables_read (os_trace os) ++ paths).
  { intros paths. induction paths as [|p paths IH] using rev_ind.
    - cbn [foldl after_commands os_trace].
      by rewrite tables_read_app, tables_read_run.
    - rewrite foldl_app. cbn [foldl]. rewrite tables_read_read, IH.
      by rewrite (assoc_L (++)). }
  split; [|split; [|split]].
  - intros e Hv. rewrite Hv in Hrun. rewrite Hrun. split; [done|].
    apply (Hreads [volume]).
  - intros v e Hv Hl. rewrite Hv, Hl in Hrun. rewrite Hrun. split; [done|].
    apply (Hreads [volume; left]).
  - intros v l e Hv Hl Hr. rewrite Hv, Hl, Hr in Hrun. rewrite Hrun.
    split; [done|]. apply (Hreads [volume; left; right]).
  - intros v l r Hv Hl Hr. rewrite Hv, Hl, Hr in Hrun. rewrite Hrun.
    split; [done|]. apply (Hreads [volume; left; right]).
Qed.

Lemma export_cifti_mapping_first_failure_witness :
  let shell : Shell := fun _ fs => (0, <["/tmp/volume.txt" := "0 A 1 2 3"]> fs) in
  let run := export_cifti_mapping "default.nii" shell None (mock_os ∅) in
  run.1 = Raise (FileNotFoundError "/tmp/left.txt")
  /\ tables_read (os_trace run.2)
     = tables_read [] ++ ["/tmp/volume.txt"; "/tmp/left.txt"].
Proof.
  intros shell run.
  apply (proj1 (proj2 (export_cifti_mapping_first_failure
                         "default.nii" shell None (mock_os ∅)))
           {| df_axis := Some "index";
              df_columns := ["structure"; "mni_i"; "mni_j"; "mni_k"];
              df_rows := [("0", ["A"; "1"; "2"; "3"])] |});
    vm_compute; reflexivity.
Defined.

Lemma files_after_idle shell cmds fs :
  (forall cmd fs', (shell cmd fs').2 = fs') -> files_after shell cmds fs = fs.
Proof.
  intros Hidle. unfold files_after. revert fs.
  induction cmds as [|cmd cmds IH]; intros fs; [done|].
  cbn [foldl]. by rewrite Hidle.
Qed.

Lemma files_after_frame shell cmds fs path :
  (forall cmd fs', (shell cmd fs').2 !! path = fs' !! path) ->
  files_after shell cmds fs !! path = fs !! path.
Proof.
  intros Hframe. unfold files_after. revert fs.
  induction cmds as [|cmd cmds IH]; intros fs; [done|].
  cbn [foldl]. by rewrite IH, Hframe.
Qed.

(** X7. The files of an earlier call are taken for fresh ones: when the
    tool writes nothing during a call, the call returns, or raises, what the
    call before it did, whatever image it was asked for. *)
Theorem export_cifti_mapping_stale_result :
  forall (default1 default2 : string) (shell1 shell2 : Shell)
         (image1 image2 : option string) (os : OS),
    (forall cmd fs, (shell2 cmd fs).2 = fs) ->
    let run1 := export_cifti_mapping default1 shell1 image1 os in
    let run2 := export_cifti_mapping default2 shell2 image2 run1.2 in
    run2.1 = run1.1.
Proof.
  intros d1 d2 shell1 shell2 image1 image2 os Hidle run1 run2.
  pose proof (run_by_files d1 shell1 image1 os) as H1.
  pose proof (run_by_files d2 shell2 image2 run1.2) as H2.
  cbv zeta in H1, H2. fold run1 in H1. fold run2 in H2.
  assert (Hfs : os_files run2.2 = os_files run1.2).
  { unfold run2. rewrite run_files. by apply files_after_idle. }
  assert (Htmp : os_tempdir run1.2 = os_tempdir os) by apply run_tempdir.
  by rewrite H2, Hfs, Htmp, <- H1.
Qed.

Lemma export_cifti_mapping_stale_result_witness :
  (export_cifti_mapping "default.nii" broken_shell (Some "b.nii")
     (export_cifti_mapping "default.nii" (mock_shell 0) (Some "a.nii")
        (mock_os ∅)).2).1
  = (export_cifti_mapping "default.nii" (mock_shell 0) (Some "a.nii")
       (mock_os ∅)).1.
Proof.
  apply (export_cifti_mapping_stale_result
           "default.nii" "default.nii" (mock_shell 0) broken_shell
           (Some "a.nii") (Some "b.nii") (mock_os ∅)).
  intros cmd fs. reflexivity.
Defined.

(** X8. The exporter itself writes no file: a file that the commands leave
    alone is after the call what it was before, present with the same text
    or absent. *)
Theorem export_cifti_mapping_frame :
  forall (parcel_labels_lr : string) (shell : Shell) (image : option string)
         (os : OS) (path : string),
    (forall cmd fs, (shell cmd fs).2 !! path = fs !! path) ->
    os_files (export_cifti_mapping parcel_labels_lr shell image os).2 !! path
    = os_files os !! path.
Proof.
  intros d shell image os path Hframe.
  rewrite run_files. by apply files_after_frame.
Qed.

Lemma export_cifti_mapping_frame_witness :
  os_files (export_cifti_mapping "default.nii" (mock_shell 0) None
              (mock_os {["/data/a.nii" := "image"]})).2 !! "/data/a.nii"
  = os_files (mock_os {["/data/a.nii" := "image"]}) !! "/data/a.nii".
Proof.
  apply export_cifti_mapping_frame.
  intros cmd fs. unfold mock_shell. cbn [snd].
  by rewrite !lookup_insert_ne.
Defined.

(** X9. The three tables never share a file: in every temporary directory
    the paths of the volume, left and right files are pairwise different. *)
Theorem export_paths_distinct :
  forall tempdir : string,
    NoDup [ join tempdir "volume.txt"; join tempdir "left.txt";
            join tempdir "right.txt" ].
Proof.
  intros tempdir.
  assert (Hinj : forall a b : string,
             join tempdir ("" +:+ a) = join tempdir ("" +:+ b) ->
             String.prefix "/" a = false -> String.prefix "/" b = false -> a = b).
  { intros a b Heq Ha Hb. unfold join in Heq.
    change ("" +:+ a) with a in Heq. change ("" +:+ b) with b in Heq.
    rewrite Ha, Hb in Heq.
    destruct (String.eqb tempdir "" || ends_with_sep tempdir).
    - by apply (inj (String.append tempdir)) in Heq.
    - apply (inj (String.append tempdir)) in Heq.
      by apply (inj (String.append "/")) in Heq. }
  repeat constructor.
  - intros Hin. enum_elem Hin; by apply Hinj in Hin.
  - intros Hin. enum_elem Hin; by apply Hinj in Hin.
  - intros Hin. by apply elem_of_nil in Hin.
Qed.

Lemma load_table_axis fs path names df :
  load_table fs path names = Return df -> df_axis df = Some "index".
Proof.
  unfold load_table. destruct (table_of_file fs path space names); [|done].
  by intros [= <-].
Qed.

(** X10. Whenever the exporter returns, for well-formed files or not, the
    mapping has exactly the keys [cortex_left], [cortex_right] and
    [subcortex], and the index axis of each of its tables is named
    [index]. *)
Theorem export_cifti_mapping_shape :
  forall (parcel_labels_lr : string) (shell : Shell) (image : option string)
         (os : OS) (maps : gmap string DataFrame),
    (export_cifti_mapping parcel_labels_lr shell image os).1 = Return maps ->
    dom maps = ({["cortex_left"; "cortex_right"; "subcortex"]} : gset string)
    /\ (forall key df, maps !! key = Some df -> df_axis df = Some "index").
Proof.
  intros d shell image os maps. rewrite run_by_files.
  destruct (load_table _ (join (os_tempdir os) "volume.txt") _) as [v|] eqn:Hv;
    [|done].
  destruct (load_table _ (join (os_tempdir os) "left.txt") _) as [l|] eqn:Hl;
    [|done].
  destruct (load_table _ (join (os_tempdir os) "right.txt") _) as [r|] eqn:Hr;
    [|done].
  intros [= <-]. split; [apply mapping_of_dom|].
  apply load_table_axis in Hv, Hl, Hr.
  intros key df. unfold mapping_of.
  rewrite !lookup_insert. repeat case_decide; [congruence..|done].
Qed.

Lemma export_cifti_mapping_shape_witness :
  exists maps : gmap string DataFrame,
    (export_cifti_mapping "default.nii" (mock_shell 0) None (mock_os ∅)).1
    = Return maps
    /\ dom maps = ({["cortex_left"; "cortex_right"; "subcortex"]} : gset string)
    /\ (forall key df, maps !! key = Some df -> df_axis df = Some "index").
Proof.
  eexists. split; [vm_compute; reflexivity|].
  apply (export_cifti_mapping_shape "default.nii" (mock_shell 0) None (mock_os ∅)).
  vm_compute. reflexivity.
Defined.
